(** * Prema 6000 multimeter driver: status decoder and command mappings

    Shallow embedding of [pymeasure/instruments/prema/prema6000.py].

    Python values are embedded in [Py.value]; a Python [dict] is an
    association list in insertion order whose keys are compared with Python's
    [==]; an exception is a value of [Py.exn]; the two effects of the driver
    (printing on standard output and writing a command to the adapter) are
    recorded, in order, in the trace of the monad [Py.M].

    Strings are [string]s of 8-bit characters, each read as the code point of
    the same number: the instrument speaks ASCII. *)

From Stdlib Require Import String Ascii List ZArith Bool Arith Lia.
From Stdlib Require DecimalString.
Import ListNotations.

Local Open Scope string_scope.
Local Open Scope list_scope.

(** ** The fragment of Python the driver uses *)

Module Py.

(** Hashable scalars: the setting values a caller passes and the keys and
    values of the driver's tables. *)
Inductive value : Type :=
| VStr (s : string)
| VBool (b : bool)
| VInt (z : Z).

Definition int_of_bool (b : bool) : Z := if b then 1%Z else 0%Z.

(** Python's [==] on these values ([True == 1] and [False == 0] hold, and
    [hash] agrees, so they are the same dictionary key). *)
Definition eqb (a b : value) : bool :=
  match a, b with
  | VStr s, VStr t => String.eqb s t
  | VBool x, VBool y => Bool.eqb x y
  | VInt x, VInt y => Z.eqb x y
  | VBool x, VInt y | VInt y, VBool x => Z.eqb (int_of_bool x) y
  | _, _ => false
  end.

(** [str(v)], as the [%s] conversion applies it. *)
Definition str (v : value) : string :=
  match v with
  | VStr s => s
  | VBool true => "True"
  | VBool false => "False"
  | VInt z => DecimalString.NilZero.string_of_int (Z.to_int z)
  end.

Inductive value_error : Type :=
| InvalidLiteral (lit : string)      (* int(): invalid literal for int() with base 10 *)
| NotInDiscreteSet (v : value).      (* strict_discrete_set: value is not in the discrete set *)

Inductive exn : Type :=
| KeyError (key : value)
| IndexError                         (* string index out of range *)
| ValueError (why : value_error)
| TypeError (why : string)
| LookupError (why : string).

Inductive result (A : Type) : Type :=
| Ok (a : A)
| Raise (e : exn).
Arguments Ok {A} a.
Arguments Raise {A} e.

Inductive event : Type :=
| Print (line : string)              (* print(line) on standard output *)
| Send (command : string).           (* adapter.write(command) *)

(** Computations: the events emitted so far, and a value or the exception
    that stopped the computation. *)
Definition M (A : Type) : Type := (list event * result A)%type.

Definition ret {A} (a : A) : M A := ([], Ok a).
Definition raise {A} (e : exn) : M A := ([], Raise e).
Definition emit (ev : event) : M unit := ([ev], Ok tt).

Definition bind {A B} (m : M A) (k : A -> M B) : M B :=
  match m with
  | (t, Ok a) => let (t', r) := k a in (t ++ t', r)
  | (t, Raise e) => (t, Raise e)
  end.

(** *** Strings *)

(** [s[i:j]] for literal bounds [0 <= i <= j]: clipped to the string, never
    an error. *)
Definition slice (s : string) (i j : nat) : string := substring i (j - i) s.

(** [s[i]]: a one-character string, or [IndexError]. *)
Definition index (s : string) (i : nat) : M ascii :=
  match get i s with
  | Some c => ret c
  | None => raise IndexError
  end.

Definition str1 (c : ascii) : string := String c EmptyString.

Definition is_digit (c : ascii) : bool :=
  (48 <=? nat_of_ascii c)%nat && (nat_of_ascii c <=? 57)%nat.

(** [int(c)] for a one-character string: its value if [c] is a decimal
    digit; a sign, a blank or anything else alone is an invalid literal. *)
Definition int (c : ascii) : M Z :=
  if is_digit c then ret (Z.of_nat (nat_of_ascii c - 48))
  else raise (ValueError (InvalidLiteral (str1 c))).

(** *** Dictionaries *)

Definition dict : Type := list (value * value).

Fixpoint get (d : dict) (k : value) : option value :=
  match d with
  | [] => None
  | (k', v) :: d' => if eqb k k' then Some v else get d' k
  end.

(** [k in d] *)
Definition contains (d : dict) (k : value) : bool :=
  match get d k with Some _ => true | None => false end.

(** [d[k]] *)
Definition getitem (d : dict) (k : value) : M value :=
  match get d k with
  | Some v => ret v
  | None => raise (KeyError k)
  end.

(** [d[k] = v]: the value of an existing key is replaced in place, a new
    key is added last. *)
Fixpoint setitem (d : dict) (k v : value) : dict :=
  match d with
  | [] => [(k, v)]
  | (k', v') :: d' => if eqb k k' then (k', v) :: d' else (k', v') :: setitem d' k v
  end.

(** A Python object in a position where the framework calls it. *)
Inductive object (A B : Type) : Type :=
| Function (f : A -> M B)
| NotCallable (type_name : string).
Arguments Function {A B} f.
Arguments NotCallable {A B} type_name.

Definition call {A B} (o : object A B) (x : A) : M B :=
  match o with
  | Function f => f x
  | NotCallable t => raise (TypeError ("'" ++ t ++ "' object is not callable")%string)
  end.

End Py.

Import Py.

Declare Scope py_scope.
Delimit Scope py_scope with py.
Notation "x <- m ;; k" := (bind m (fun x => k))
  (at level 61, m at next level, right associativity) : py_scope.
Notation "m ;;; k" := (bind m (fun _ => k))
  (at level 61, right associativity) : py_scope.
Local Open Scope py_scope.

Coercion VStr : string >-> value.

(** ** The instrument framework ([pymeasure.instruments]) *)

Module Instrument.

(** Modelled from the spec: the validator [strict_discrete_set] of
    [pymeasure.instruments.validators], which this driver imports: "the
    validator function enforcing set membership"; a value that is not a
    member fails with an "invalid choice" error. For a dictionary the
    members are its keys. *)
Definition strict_discrete_set (v : value) (values : dict) : M value :=
  if contains values v then ret v
  else raise (ValueError (NotInDiscreteSet v)).

(** Modelled from the spec: the validator of a property declared without
    one, which accepts every value ([lambda v, vs: v]). *)
Definition accept_all (v : value) (values : dict) : M value := ret v.

(** Modelled from the spec: the keyword arguments of a property of "the
    generic property-descriptor framework providing get/set with validation
    and value-mapping" ([Instrument.control]). [G] is the type of the
    values the getter yields. *)
Record property (G : Type) : Type := control {
  get_command : option string;
  set_command : option string;
  validator : value -> dict -> M value;
  values : dict;
  map_values : bool;
  get_process : object string G;
  set_process : object value value
}.
Arguments control {G}.
Arguments get_command {G}.
Arguments set_command {G}.
Arguments validator {G}.
Arguments values {G}.
Arguments map_values {G}.
Arguments get_process {G}.
Arguments set_process {G}.

(** Modelled from the spec: [lambda v: v], the default of [get_process] and
    [set_process]. *)
Definition identity {A} : object A A := Function (fun v => ret v).

(** Modelled from the spec: [Instrument.measurement(get_command, docs,
    get_process=...)], a property that is read by a query and cannot be
    set. *)
Definition measurement {G} (get_command : string) (get_process : object string G)
  : property G :=
  control (Some get_command) None accept_all [] false get_process identity.

(** Modelled from the spec: [Instrument.setting(set_command, docs)], a
    property that is set by a command and cannot be read. *)
Definition setting (set_command : string) : property string :=
  control None (Some set_command) accept_all [] false identity identity.

(** Modelled from the spec: what [Instrument.control], [measurement] and
    [setting] return is a property descriptor, an object that is not a
    function: where one is passed as [get_process] or [set_process], the
    call the framework makes of it raises [TypeError]. *)
Definition property_object {G A B} (p : property G) : object A B :=
  NotCallable "property".

(** [fmt % v] for a value that is a string, a boolean or an integer and a
    format that holds plain text and at most one conversion, [%s] (the
    formats of this driver are "%s" and "P0"): the value takes the place of
    [%s]; with no conversion in the format the value is left over, and
    Python raises [TypeError]. *)
Fixpoint percent (fmt : string) (v : value) : M string :=
  match fmt with
  | String "%" (String "s" rest) => ret (str v ++ rest)%string
  | String c rest => out <- percent rest v ;; ret (String c out)
  | EmptyString =>
      raise (TypeError "not all arguments converted during string formatting")
  end.

(** Modelled from the spec: the setter of a property ([fset] of
    [Instrument.control]): "membership validation against the fixed set
    before any code is sent", then the value mapping through the table,
    then the command string is formatted and written to the adapter. *)
Definition fset {G} (p : property G) (v : value) : M unit :=
  match set_command p with
  | None => raise (LookupError "Property can not be set.")
  | Some command =>
      v <- validator p v (values p) ;;
      v <- call (set_process p) v ;;
      v <- (if map_values p then getitem (values p) v else ret v) ;;
      command <- percent command v ;;
      emit (Send command)
  end.

(** Modelled from the spec: the getter of a property ([fget] of
    [Instrument.control]) that is declared without [map_values], as the
    measurements of this driver are: the query command is written to the
    adapter and the raw response [raw] it reads back is handed to
    [get_process]. The mapping of a value read back through the table of a
    property declared with [map_values] is not modelled. *)
Definition fget {G} (p : property G) (raw : string) : M G :=
  match get_command p with
  | None => raise (LookupError "Property can not be read.")
  | Some command =>
      emit (Send command) ;;;
      call (get_process p) raw
  end.

End Instrument.

Import Instrument.

(** ** The driver: [class Prema6000(Instrument)] *)

Module Prema6000.

Definition MODES : dict :=
  [ (VStr "direct voltage", VStr "VD");
    (VStr "alternating voltage", VStr "VA");
    (VStr "2-wire resistance", VStr "O2");
    (VStr "4-wire resistance", VStr "O4");
    (VStr "direct current", VStr "ID");
    (VStr "alternating current", VStr "IA");
    (VStr "celsius", VStr "TC");
    (VStr "farenheit", VStr "TF");
    (VStr "kelvin", VStr "TK") ].

Definition CODE_TO_MODE : dict :=
  [ (VStr "VD", VStr "direct voltage");
    (VStr "VA", VStr "alternating voltage");
    (VStr "O2", VStr "2-wire resistance");
    (VStr "O4", VStr "4-wire resistance");
    (VStr "ID", VStr "direct current");
    (VStr "IA", VStr "alternating current");
    (VStr "TC", VStr "celsius");
    (VStr "TF", VStr "farenheit");
    (VStr "TK", VStr "kelvin") ].

Definition INT_TIMES : dict :=
  [ (VStr "T1", VStr "100 ms");
    (VStr "T2", VStr "1 s");
    (VStr "T3", VStr "1 s");
    (VStr "T4", VStr "10 s") ].

Definition state_to_dict (state_string : string) : M dict :=
  let state_dict : dict := [] in
  mode <- getitem CODE_TO_MODE (slice state_string 12 14) ;;
  let state_dict := setitem state_dict "mode" mode in
  let state_dict := setitem state_dict "range" (slice state_string 14 16) in
  let state_dict :=
    setitem state_dict "autoranging"
      (VStr (if slice state_string 16 18 =? "A1" then "enabled" else "disabled")) in
  integration_time <- getitem INT_TIMES (slice state_string 18 20) ;;
  let state_dict := setitem state_dict "integration time" integration_time in
  let state_dict :=
    setitem state_dict "continuous"
      (VStr (if slice state_string 20 22 =? "S1" then "started" else "stopped")) in
  let state_dict :=
    setitem state_dict "SRQ status"
      (VStr (if slice state_string 22 24 =? "Q0" then "without" else "with")) in
  channel <- index state_string 25 ;;
  multiplexer <- (if (channel =? "O")%char then ret (VStr "off")
                  else n <- int channel ;; ret (VInt n)) ;;
  let state_dict := setitem state_dict "mutiplexer channel" multiplexer in
  shown <- index state_string 27 ;;
  emit (Print (str1 shown)) ;;;
  display <- index state_string 27 ;;
  let state_dict :=
    setitem state_dict "display mode"
      (VStr (if (display =? "1")%char then "on" else "off")) in
  key <- index state_string 29 ;;
  let state_dict := setitem state_dict "latest pressed key" (str1 key) in
  ret state_dict.

Definition state : property dict :=
  measurement "P0" (Function state_to_dict).

Definition old_mode : property string :=
  control (Some "P0") (Some "%s") strict_discrete_set MODES true identity identity.

Definition set_mode : property string := setting "%s".

Definition get_mode : property string := setting "P0".

Definition mode : property string :=
  control (Some "P0") (Some "%s") accept_all [] false
    (property_object get_mode) (property_object set_mode).

Definition return_mode : property string :=
  control None (Some "%s") strict_discrete_set
    [ (VStr "measurement only", VStr "L0");
      (VStr "measurement and status", VStr "L1") ]
    true identity identity.

Definition autorange : property string :=
  control None (Some "%s") strict_discrete_set
    [ (VBool true, VStr "A1"); (VBool false, VStr "A0");
      (VStr "enabled", VStr "A1"); (VStr "disabled", VStr "A0") ]
    true identity identity.

Definition integration_time : property string :=
  control None (Some "%s") strict_discrete_set
    [ (VStr "100ms", VStr "T1"); (VStr "1s", VStr "T3"); (VStr "10s", VStr "T4") ]
    true identity identity.

(** [lambda x: x[:12]] *)
Definition first12 : object string string :=
  Function (fun x => ret (slice x 0 12)).

Definition voltage : property string := measurement "P0" first12.
Definition resistance : property string := measurement "P0" first12.
Definition current : property string := measurement "P0" first12.
Definition temperature : property string := measurement "P0" first12.

End Prema6000.

Import Prema6000.

(** ** Reading a decoded record *)

(** The dictionary [state_to_dict] builds, by the values it stores under its
    nine keys, in the order it stores them. *)
Definition status_record
  (mode range autoranging integration_time continuous srq multiplexer display key : value)
  : dict :=
  [ (VStr "mode", mode);
    (VStr "range", range);
    (VStr "autoranging", autoranging);
    (VStr "integration time", integration_time);
    (VStr "continuous", continuous);
    (VStr "SRQ status", srq);
    (VStr "mutiplexer channel", multiplexer);
    (VStr "display mode", display);
    (VStr "latest pressed key", key) ].

(** What [state_to_dict] stores for the character at offset 25, when it
    stores anything. *)
Definition channel_value (c : ascii) : option value :=
  if (c =? "O")%char then Some (VStr "off")
  else if is_digit c then Some (VInt (Z.of_nat (nat_of_ascii c - 48)))
  else None.

(** ** Facts about the Python fragment *)

(** Case analysis on the entries of a table given as a literal: [H] says
    that a pair is in the table, and [tac] settles the goal for each entry. *)
Ltac each_entry H tac :=
  simpl in H;
  repeat (destruct H as [[= <- <-] | H]; [tac |]);
  contradiction.

Lemma eqb_VStr_r (k : value) (s : string) : eqb k (VStr s) = true -> k = VStr s.
Proof.
  destruct k as [t | b | z]; simpl; try discriminate.
  intros H. apply String.eqb_eq in H. now subst.
Qed.

Lemma get_In (d : dict) (k v : value) :
  Py.get d k = Some v -> exists k', In (k', v) d /\ eqb k k' = true.
Proof.
  induction d as [| [k' v'] d IH]; simpl; [discriminate |].
  destruct (eqb k k') eqn:E.
  - intros [= <-]. exists k'. auto.
  - intros H. destruct (IH H) as (k'' & Hin & Hk). exists k''. auto.
Qed.

Lemma getitem_ret (d : dict) (k v : value) :
  getitem d k = ret v <-> Py.get d k = Some v.
Proof.
  unfold getitem, ret, raise. destruct (Py.get d k); split; congruence.
Qed.

Lemma get_None_length (s : string) (n : nat) :
  String.get n s = None <-> String.length s <= n.
Proof.
  revert n. induction s as [| c s IH]; intros [| n]; simpl.
  - split; [lia | reflexivity].
  - split; [lia | reflexivity].
  - split; [discriminate | lia].
  - rewrite IH. lia.
Qed.

Lemma get_Some_length (s : string) (n : nat) :
  n < String.length s -> exists c, String.get n s = Some c.
Proof.
  intros H. destruct (String.get n s) as [c |] eqn:E; [now exists c |].
  apply get_None_length in E. lia.
Qed.

Lemma substring_length (s : string) (n m : nat) :
  String.length (substring n m s) = Nat.min m (String.length s - n).
Proof.
  revert n m. induction s as [| c s IH]; intros [| n] [| m]; simpl;
    try reflexivity; try (rewrite IH; simpl; lia).
Qed.

Lemma substring_out (s : string) (n m : nat) :
  (forall i, n <= i < n + m -> String.get i s = None) ->
  substring n m s = EmptyString.
Proof.
  revert n m. induction s as [| c s IH]; intros [| n] [| m] H; simpl;
    try reflexivity.
  - specialize (H 0 ltac:(lia)). discriminate.
  - apply IH. intros i Hi. apply (H (S i)). lia.
  - apply IH. intros i Hi. apply (H (S i)). lia.
Qed.

(** A slice is determined by the characters at the offsets it covers. *)
Lemma substring_ext (s t : string) (n m : nat) :
  (forall i, n <= i < n + m -> String.get i s = String.get i t) ->
  substring n m s = substring n m t.
Proof.
  revert t n m. induction s as [| c s IH]; intros t n m H.
  - rewrite (substring_out t n m); [| intros i Hi; now rewrite <- H].
    now destruct n, m.
  - destruct t as [| d t].
    + rewrite (substring_out (String c s) n m); [| intros i Hi; now rewrite H].
      now destruct n, m.
    + destruct n as [| n], m as [| m]; simpl; try reflexivity.
      * pose proof (H 0 ltac:(lia)) as H0. simpl in H0. injection H0 as ->.
        f_equal. apply IH. intros i Hi. apply (H (S i)). lia.
      * apply IH. intros i Hi. apply (H (S i)). lia.
      * apply IH. intros i Hi. apply (H (S i)). lia.
Qed.

Lemma slice_ext (s t : string) (i j : nat) :
  (forall k, i <= k < j -> String.get k s = String.get k t) ->
  slice s i j = slice t i j.
Proof.
  intros H. unfold slice. apply substring_ext. intros k Hk. apply H. lia.
Qed.

Lemma slice_prefix (s : string) (n : nat) :
  s = (slice s 0 n ++ substring n (String.length s - n) s)%string.
Proof.
  unfold slice. rewrite Nat.sub_0_r. revert n.
  induction s as [| c s IH]; intros [| n]; simpl; try reflexivity.
  - f_equal. clear IH. induction s as [| d s IH]; simpl; [reflexivity | now f_equal].
  - f_equal. apply IH.
Qed.

Lemma is_digit_spec (c : ascii) :
  is_digit c = true <->
  In c ["0"; "1"; "2"; "3"; "4"; "5"; "6"; "7"; "8"; "9"]%char.
Proof.
  split.
  - destruct c as [[] [] [] [] [] [] [] []]; vm_compute; intros H;
      try discriminate; tauto.
  - intros H. simpl in H.
    repeat (destruct H as [<- | H]; [reflexivity |]). contradiction.
Qed.

(** ** The mode tables *)

(** C1. The mode tables [MODES] (symbolic name to code) and [CODE_TO_MODE]
    (code to symbolic name) are inverse bijections between 9 names and 9
    two-character codes: a name maps to a code exactly when the code maps
    back to the name, so the round trip [CODE_TO_MODE[MODES[m]] == m] holds
    for each of the 9 names, no two names share a code and no two codes share
    a name. *)
Theorem MODES_bijection :
  List.length MODES = 9 /\ List.length CODE_TO_MODE = 9 /\
  NoDup (map fst MODES) /\ NoDup (map fst CODE_TO_MODE) /\
  (forall m c : value, getitem MODES m = ret c <-> getitem CODE_TO_MODE c = ret m) /\
  (forall m : value, In m (map fst MODES) ->
     exists c : string, String.length c = 2 /\
       getitem MODES m = ret (VStr c) /\ getitem CODE_TO_MODE c = ret m) /\
  (forall m1 m2 c : value,
     getitem MODES m1 = ret c -> getitem MODES m2 = ret c -> m1 = m2) /\
  (forall c1 c2 m : value,
     getitem CODE_TO_MODE c1 = ret m -> getitem CODE_TO_MODE c2 = ret m -> c1 = c2).
Proof.
  assert (Hiff : forall m c : value,
             getitem MODES m = ret c <-> getitem CODE_TO_MODE c = ret m).
  { intros m c. rewrite !getitem_ret. split; intros H.
    - destruct (get_In _ _ _ H) as (k & Hin & Hk).
      each_entry Hin ltac:(apply eqb_VStr_r in Hk; subst m; reflexivity).
    - destruct (get_In _ _ _ H) as (k & Hin & Hk).
      each_entry Hin ltac:(apply eqb_VStr_r in Hk; subst c; reflexivity). }
  repeat split; try reflexivity; try apply Hiff.
  - repeat constructor; simpl; intuition discriminate.
  - repeat constructor; simpl; intuition discriminate.
  - intros m Hin. simpl in Hin.
    repeat (destruct Hin as [<- | Hin];
            [eexists; repeat split; reflexivity |]).
    contradiction.
  - intros m1 m2 c H1 H2. apply Hiff in H1, H2. unfold ret in *. congruence.
  - intros c1 c2 m H1 H2. apply Hiff in H1, H2. unfold ret in *. congruence.
Qed.

(** ** The status decoder *)

(** [state_to_dict], statement by statement: the first statement that raises
    decides the exception, and the [print] comes after the channel is
    decoded. *)
Lemma state_to_dict_cases (s : string) :
  state_to_dict s =
  match Py.get CODE_TO_MODE (slice s 12 14) with
  | None => ([], Raise (KeyError (slice s 12 14)))
  | Some mode =>
    match Py.get INT_TIMES (slice s 18 20) with
    | None => ([], Raise (KeyError (slice s 18 20)))
    | Some integration_time =>
      match String.get 25 s with
      | None => ([], Raise IndexError)
      | Some channel =>
        match channel_value channel with
        | None => ([], Raise (ValueError (InvalidLiteral (str1 channel))))
        | Some multiplexer =>
          match String.get 27 s with
          | None => ([], Raise IndexError)
          | Some display =>
            match String.get 29 s with
            | None => ([Print (str1 display)], Raise IndexError)
            | Some key =>
                ([Print (str1 display)],
                 Ok (status_record mode (slice s 14 16)
                       (VStr (if slice s 16 18 =? "A1" then "enabled" else "disabled"))
                       integration_time
                       (VStr (if slice s 20 22 =? "S1" then "started" else "stopped"))
                       (VStr (if slice s 22 24 =? "Q0" then "without" else "with"))
                       multiplexer
                       (VStr (if (display =? "1")%char then "on" else "off"))
                       (str1 key)))
            end
          end
        end
      end
    end
  end.
Proof.
  unfold state_to_dict, getitem, index, channel_value, int.
  destruct (Py.get CODE_TO_MODE (slice s 12 14)) as [mode |]; [| reflexivity].
  destruct (Py.get INT_TIMES (slice s 18 20)) as [integration_time |]; [| reflexivity].
  destruct (String.get 25 s) as [channel |]; [| reflexivity].
  cbn [bind ret].
  destruct (channel =? "O")%char.
  - destruct (String.get 27 s) as [display |]; [| reflexivity].
    destruct (String.get 29 s) as [key |]; reflexivity.
  - destruct (is_digit channel); [| reflexivity].
    destruct (String.get 27 s) as [display |]; [| reflexivity].
    destruct (String.get 29 s) as [key |]; reflexivity.
Qed.

(** A record the decoder returns is made of the decoded fields, and the
    line it printed is the character at offset 27. *)
Lemma state_to_dict_Ok (s : string) (t : list event) (d : dict) :
  state_to_dict s = (t, Ok d) ->
  exists mode integration_time channel multiplexer display key,
    Py.get CODE_TO_MODE (slice s 12 14) = Some mode /\
    Py.get INT_TIMES (slice s 18 20) = Some integration_time /\
    String.get 25 s = Some channel /\
    channel_value channel = Some multiplexer /\
    String.get 27 s = Some display /\
    String.get 29 s = Some key /\
    t = [Print (str1 display)] /\
    d = status_record mode (slice s 14 16)
          (VStr (if slice s 16 18 =? "A1" then "enabled" else "disabled"))
          integration_time
          (VStr (if slice s 20 22 =? "S1" then "started" else "stopped"))
          (VStr (if slice s 22 24 =? "Q0" then "without" else "with"))
          multiplexer
          (VStr (if (display =? "1")%char then "on" else "off"))
          (str1 key).
Proof.
  rewrite state_to_dict_cases.
  destruct (Py.get CODE_TO_MODE _) as [mode |] eqn:Em; [| discriminate].
  destruct (Py.get INT_TIMES _) as [integration_time |] eqn:Ei; [| discriminate].
  destruct (String.get 25 s) as [channel |] eqn:Ec; [| discriminate].
  destruct (channel_value channel) as [multiplexer |] eqn:Ex; [| discriminate].
  destruct (String.get 27 s) as [display |] eqn:Ed; [| discriminate].
  destruct (String.get 29 s) as [key |] eqn:Ek; [| discriminate].
  intros [= <- <-].
  exists mode, integration_time, channel, multiplexer, display, key.
  repeat split; assumption.
Qed.

(** The record of the scenario. A raw status string that holds "VD" at
    [12:14], "02" at [14:16], "A1" at [16:18], "T3" at [18:20], "S1" at
    [20:22], "Q0" at [22:24], "3" at offset 25, "1" at offset 27 and "5" at
    offset 29, whatever its other characters, is decoded to this dictionary,
    and the decoder prints the character at offset 27 on the way. *)
Lemma state_to_dict_scenario (s : string) :
  slice s 12 14 = "VD" -> slice s 14 16 = "02" -> slice s 16 18 = "A1" ->
  slice s 18 20 = "T3" -> slice s 20 22 = "S1" -> slice s 22 24 = "Q0" ->
  String.get 25 s = Some "3"%char ->
  String.get 27 s = Some "1"%char ->
  String.get 29 s = Some "5"%char ->
  state_to_dict s =
    ([Print "1"],
     Ok [ (VStr "mode", VStr "direct voltage");
          (VStr "range", VStr "02");
          (VStr "autoranging", VStr "enabled");
          (VStr "integration time", VStr "1 s");
          (VStr "continuous", VStr "started");
          (VStr "SRQ status", VStr "without");
          (VStr "mutiplexer channel", VInt 3);
          (VStr "display mode", VStr "on");
          (VStr "latest pressed key", VStr "5") ]).
Proof.
  intros Hmode Hrange Hauto Htime Hcont Hsrq Hchan Hdisp Hkey.
  unfold state_to_dict, index.
  rewrite Hmode, Hrange, Hauto, Htime, Hcont, Hsrq, Hchan, Hdisp, Hkey.
  reflexivity.
Qed.

(** C2 holds for eight of the nine fields and fails on the channel. For a
    raw status string that holds "VD" at [12:14], "02" at [14:16], "A1" at
    [16:18], "T3" at [18:20], "S1" at [20:22], "Q0" at [22:24], "3" at offset
    25, "1" at offset 27 and "5" at offset 29, the decoder returns a record
    with mode "direct voltage", range "02", autoranging "enabled",
    integration time "1 s", continuous "started", SRQ status "without",
    display mode "on" and latest pressed key "5"; but the record has no field
    "multiplexer channel": the integer 3 is stored under the key the source
    misspells, "mutiplexer channel". *)
Theorem scenario_channel_key (s : string) :
  slice s 12 14 = "VD" -> slice s 14 16 = "02" -> slice s 16 18 = "A1" ->
  slice s 18 20 = "T3" -> slice s 20 22 = "S1" -> slice s 22 24 = "Q0" ->
  String.get 25 s = Some "3"%char ->
  String.get 27 s = Some "1"%char ->
  String.get 29 s = Some "5"%char ->
  exists d, state_to_dict s = ([Print "1"], Ok d) /\
    Py.get d "mode" = Some (VStr "direct voltage") /\
    Py.get d "range" = Some (VStr "02") /\
    Py.get d "autoranging" = Some (VStr "enabled") /\
    Py.get d "integration time" = Some (VStr "1 s") /\
    Py.get d "continuous" = Some (VStr "started") /\
    Py.get d "SRQ status" = Some (VStr "without") /\
    Py.get d "display mode" = Some (VStr "on") /\
    Py.get d "latest pressed key" = Some (VStr "5") /\
    Py.get d "multiplexer channel" = None /\
    Py.get d "mutiplexer channel" = Some (VInt 3).
Proof.
  intros Hmode Hrange Hauto Htime Hcont Hsrq Hchan Hdisp Hkey.
  eexists. split; [now apply state_to_dict_scenario |].
  repeat split.
Qed.

(** A status string that matches the scenario: the measurement in the first
    twelve characters, then the status codes. Its record has no field
    "multiplexer channel". *)
Lemma scenario_channel_key_witness :
  exists d,
    state_to_dict "+1.2345E+00 VD02A1T3S1Q0M3D1K5" = ([Print "1"], Ok d) /\
    Py.get d "mode" = Some (VStr "direct voltage") /\
    Py.get d "range" = Some (VStr "02") /\
    Py.get d "autoranging" = Some (VStr "enabled") /\
    Py.get d "integration time" = Some (VStr "1 s") /\
    Py.get d "continuous" = Some (VStr "started") /\
    Py.get d "SRQ status" = Some (VStr "without") /\
    Py.get d "display mode" = Some (VStr "on") /\
    Py.get d "latest pressed key" = Some (VStr "5") /\
    Py.get d "multiplexer channel" = None /\
    Py.get d "mutiplexer channel" = Some (VInt 3).
Proof.
  apply (scenario_channel_key "+1.2345E+00 VD02A1T3S1Q0M3D1K5"); reflexivity.
Defined.

Lemma channel_value_None (c : ascii) :
  channel_value c = None <-> c <> "O"%char /\ is_digit c = false.
Proof.
  unfold channel_value. destruct (Ascii.eqb_spec c "O") as [-> | Hne].
  - split; [discriminate | intros [H _]; now elim H].
  - destruct (is_digit c); split; try discriminate; auto.
    intros [_ H]. discriminate.
Qed.

Lemma channel_value_O : channel_value "O" = Some (VStr "off").
Proof. reflexivity. Qed.

Lemma channel_value_digit (c : ascii) (n : nat) :
  nth_error ["0"; "1"; "2"; "3"; "4"; "5"; "6"; "7"; "8"; "9"]%char n = Some c ->
  channel_value c = Some (VInt (Z.of_nat n)).
Proof.
  do 10 (destruct n as [| n]; [intros [= <-]; reflexivity |]).
  destruct n; discriminate.
Qed.

Lemma known_code (d : dict) (k : value) :
  Py.get d k <> None -> exists v, Py.get d k = Some v.
Proof. destruct (Py.get d k) as [v |]; [now exists v | congruence]. Qed.

(** A slice that ends beyond the string is too short to be a two-character
    code. *)
Lemma short_slice_unknown (d : dict) (s : string) (i : nat) :
  Forall (fun kv => exists code, fst kv = VStr code /\ String.length code = 2) d ->
  String.length s < i + 2 ->
  Py.get d (slice s i (i + 2)) = None.
Proof.
  intros Hd Hlen.
  destruct (Py.get d (slice s i (i + 2))) as [v |] eqn:E; [| reflexivity].
  destruct (get_In _ _ _ E) as (k & Hin & Hk).
  rewrite Forall_forall in Hd. destruct (Hd _ Hin) as (code & Hcode & Hlen2).
  simpl in Hcode. subst k. apply eqb_VStr_r in Hk. injection Hk as Hk.
  apply (f_equal String.length) in Hk. unfold slice in Hk.
  rewrite substring_length in Hk. lia.
Qed.

(** C3, as the code has it. A raw status string shorter than 30 characters
    always makes the decoder fail, and the exception is that of the first
    statement that fails: [KeyError] when the slice [12:14] is not a mode
    code, or else when the slice [18:20] is not an integration-time code
    (always so for a string shorter than 20 characters); otherwise
    [ValueError] from [int] when there is a character at offset 25 that is
    neither "O" nor a decimal digit; otherwise [IndexError]. A string of
    length 29 whose mode, integration-time and channel codes are valid
    prints the character at offset 27 and fails with [IndexError] at offset
    29. *)
Theorem short_status_fails (s : string) :
  String.length s < 30 ->
  (exists t e, state_to_dict s = (t, Raise e)) /\
  (Py.get CODE_TO_MODE (slice s 12 14) = None ->
     state_to_dict s = ([], Raise (KeyError (slice s 12 14)))) /\
  (Py.get CODE_TO_MODE (slice s 12 14) <> None ->
   Py.get INT_TIMES (slice s 18 20) = None ->
     state_to_dict s = ([], Raise (KeyError (slice s 18 20)))) /\
  (String.length s < 20 -> exists k, state_to_dict s = ([], Raise (KeyError k))) /\
  (forall c,
     Py.get CODE_TO_MODE (slice s 12 14) <> None ->
     Py.get INT_TIMES (slice s 18 20) <> None ->
     String.get 25 s = Some c -> c <> "O"%char -> is_digit c = false ->
     state_to_dict s = ([], Raise (ValueError (InvalidLiteral (str1 c))))) /\
  (Py.get CODE_TO_MODE (slice s 12 14) <> None ->
   Py.get INT_TIMES (slice s 18 20) <> None ->
   (String.get 25 s = None \/
    exists c, String.get 25 s = Some c /\ (c = "O"%char \/ is_digit c = true)) ->
     exists t, state_to_dict s = (t, Raise IndexError)) /\
  (String.length s = 29 ->
   Py.get CODE_TO_MODE (slice s 12 14) <> None ->
   Py.get INT_TIMES (slice s 18 20) <> None ->
   (exists c, String.get 25 s = Some c /\ (c = "O"%char \/ is_digit c = true)) ->
     exists shown, String.get 27 s = Some shown /\
       state_to_dict s = ([Print (str1 shown)], Raise IndexError)).
Proof.
  intros Hlen.
  assert (H29 : String.get 29 s = None) by (apply get_None_length; lia).
  assert (Hcases := state_to_dict_cases s). rewrite H29 in Hcases.
  assert (Hvalid : forall c, c = "O"%char \/ is_digit c = true ->
                             exists v, channel_value c = Some v).
  { intros c Hc. destruct (channel_value c) as [v |] eqn:E; [now exists v |].
    apply channel_value_None in E. destruct E as [E1 E2], Hc; congruence. }
  repeat split.
  - rewrite Hcases.
    destruct (Py.get CODE_TO_MODE _); [| eauto].
    destruct (Py.get INT_TIMES _); [| eauto].
    destruct (String.get 25 s) as [c |]; [| eauto].
    destruct (channel_value c); [| eauto].
    destruct (String.get 27 s); eauto.
  - intros Hm. rewrite Hcases, Hm. reflexivity.
  - intros Hm Ht. destruct (known_code _ _ Hm) as (m & Em).
    rewrite Hcases, Em, Ht. reflexivity.
  - intros Hshort. rewrite Hcases.
    destruct (Py.get CODE_TO_MODE _); [| eauto].
    assert (Hunknown := short_slice_unknown INT_TIMES s 18).
    change (18 + 2) with 20 in Hunknown.
    rewrite Hunknown; [eauto | | assumption].
    repeat constructor; simpl; eauto.
  - intros c Hm Ht Hc Hno Hnd.
    destruct (known_code _ _ Hm) as (m & Em), (known_code _ _ Ht) as (i & Ei).
    rewrite Hcases, Em, Ei, Hc.
    now rewrite (proj2 (channel_value_None c) (conj Hno Hnd)).
  - intros Hm Ht Hc.
    destruct (known_code _ _ Hm) as (m & Em), (known_code _ _ Ht) as (i & Ei).
    rewrite Hcases, Em, Ei.
    destruct Hc as [-> | (c & -> & Hc)]; [eauto |].
    destruct (Hvalid c Hc) as (v & ->).
    destruct (String.get 27 s); eauto.
  - intros H29' Hm Ht (c & Hc & Hok).
    destruct (known_code _ _ Hm) as (m & Em), (known_code _ _ Ht) as (i & Ei).
    destruct (get_Some_length s 27 ltac:(lia)) as (shown & Hshown).
    exists shown. split; [assumption |].
    rewrite Hcases, Em, Ei, Hc, Hshown.
    destruct (Hvalid c Hok) as (v & ->). reflexivity.
Qed.

(** A status string cut after 29 characters, with valid codes: the decoder
    fails. *)
Lemma short_status_fails_witness :
  exists t e, state_to_dict "+1.2345E+00 VD02A1T3S1Q0M3D1K" = (t, Raise e).
Proof.
  apply (short_status_fails "+1.2345E+00 VD02A1T3S1Q0M3D1K"). simpl. lia.
Defined.

(** C3, as stated, fails: the empty string and a string of 29 characters
    with no known code at [12:14] are shorter than 30 and fail with
    [KeyError]; a string of 29 characters with a letter at offset 25 fails
    with [ValueError]. None of them fails with the out-of-bounds error. *)
Lemma short_status_other_errors :
  (String.length "" < 30 /\
   state_to_dict "" = ([], Raise (KeyError "")) /\
   KeyError "" <> IndexError) /\
  (String.length "xxxxxxxxxxxxxxxxxxxxxxxxxxxxx" = 29 /\
   state_to_dict "xxxxxxxxxxxxxxxxxxxxxxxxxxxxx" = ([], Raise (KeyError "xx")) /\
   KeyError "xx" <> IndexError) /\
  (String.length "+1.2345E+00 VD02A1T3S1Q0MxD1K" = 29 /\
   state_to_dict "+1.2345E+00 VD02A1T3S1Q0MxD1K"
     = ([], Raise (ValueError (InvalidLiteral "x"))) /\
   ValueError (InvalidLiteral "x") <> IndexError).
Proof.
  repeat split; try discriminate. simpl. lia.
Qed.

Lemma get_status_record_multiplexer
  (mode range autoranging integration_time continuous srq multiplexer display key : value) :
  Py.get (status_record mode range autoranging integration_time continuous srq
            multiplexer display key) "mutiplexer channel" = Some multiplexer.
Proof. reflexivity. Qed.

Lemma get_status_record_integration_time
  (mode range autoranging integration_time continuous srq multiplexer display key : value) :
  Py.get (status_record mode range autoranging integration_time continuous srq
            multiplexer display key) "integration time" = Some integration_time.
Proof. reflexivity. Qed.

Lemma get_status_record_autoranging
  (mode range autoranging integration_time continuous srq multiplexer display key : value) :
  Py.get (status_record mode range autoranging integration_time continuous srq
            multiplexer display key) "autoranging" = Some autoranging.
Proof. reflexivity. Qed.

(** A string of at least 30 characters with known mode and integration-time
    codes is decoded as far as the channel, and to the end when the channel
    is valid. *)
Lemma state_to_dict_long (s : string) :
  30 <= String.length s ->
  Py.get CODE_TO_MODE (slice s 12 14) <> None ->
  Py.get INT_TIMES (slice s 18 20) <> None ->
  exists c, String.get 25 s = Some c /\
    match channel_value c with
    | None => state_to_dict s = ([], Raise (ValueError (InvalidLiteral (str1 c))))
    | Some multiplexer =>
        exists t d, state_to_dict s = (t, Ok d) /\
          Py.get d "mutiplexer channel" = Some multiplexer /\
          Py.get d "integration time" = Py.get INT_TIMES (slice s 18 20)
    end.
Proof.
  intros Hlen Hm Ht.
  destruct (known_code _ _ Hm) as (m & Em), (known_code _ _ Ht) as (i & Ei).
  destruct (get_Some_length s 25 ltac:(lia)) as (c & Hc).
  destruct (get_Some_length s 27 ltac:(lia)) as (display & Hd).
  destruct (get_Some_length s 29 ltac:(lia)) as (key & Hk).
  exists c. split; [assumption |].
  rewrite state_to_dict_cases, Em, Ei, Hc, Hd, Hk.
  destruct (channel_value c) as [multiplexer |]; [| reflexivity].
  do 2 eexists. split; [reflexivity |].
  now rewrite get_status_record_multiplexer, get_status_record_integration_time.
Qed.

(** C4, as the code has it. For a raw status string of at least 30 characters
    whose slices [12:14] and [18:20] are a known mode code and a known
    integration-time code, the value stored under "mutiplexer channel" comes
    from the one character at offset 25: "O" gives the string "off", a decimal
    digit gives its value as an integer, and for any other character the
    decoder fails with the [ValueError] of [int]. *)
Theorem multiplexer_channel_decoding (s : string) :
  30 <= String.length s ->
  Py.get CODE_TO_MODE (slice s 12 14) <> None ->
  Py.get INT_TIMES (slice s 18 20) <> None ->
  exists c, String.get 25 s = Some c /\
    (c = "O"%char ->
       exists t d, state_to_dict s = (t, Ok d) /\
         Py.get d "mutiplexer channel" = Some (VStr "off")) /\
    (forall n : nat,
       nth_error ["0"; "1"; "2"; "3"; "4"; "5"; "6"; "7"; "8"; "9"]%char n = Some c ->
       exists t d, state_to_dict s = (t, Ok d) /\
         Py.get d "mutiplexer channel" = Some (VInt (Z.of_nat n))) /\
    (c <> "O"%char ->
     ~ In c ["0"; "1"; "2"; "3"; "4"; "5"; "6"; "7"; "8"; "9"]%char ->
       state_to_dict s = ([], Raise (ValueError (InvalidLiteral (str1 c))))).
Proof.
  intros Hlen Hm Ht.
  destruct (state_to_dict_long s Hlen Hm Ht) as (c & Hc & Hdec).
  exists c. split; [assumption |]. repeat split.
  - intros ->. rewrite channel_value_O in Hdec.
    destruct Hdec as (t & d & Hs & Hmux & _). eauto.
  - intros n Hn. rewrite (channel_value_digit c n Hn) in Hdec.
    destruct Hdec as (t & d & Hs & Hmux & _). eauto.
  - intros HO Hnd.
    assert (E : channel_value c = None).
    { apply channel_value_None. split; [assumption |].
      destruct (is_digit c) eqn:D; [| reflexivity].
      apply is_digit_spec in D. contradiction. }
    now rewrite E in Hdec.
Qed.

(** A status string whose channel character is "O": the multiplexer is
    reported as "off". *)
Lemma multiplexer_channel_decoding_witness :
  exists t d, state_to_dict "+1.2345E+00 VD02A1T3S1Q0MOD1K5" = (t, Ok d) /\
    Py.get d "mutiplexer channel" = Some (VStr "off").
Proof.
  destruct (multiplexer_channel_decoding "+1.2345E+00 VD02A1T3S1Q0MOD1K5")
    as (c & Hc & HO & _).
  - simpl. lia.
  - discriminate.
  - discriminate.
  - apply HO. simpl in Hc. now injection Hc as <-.
Defined.

(** C4, as stated, fails: these strings have 30 characters; the first has a
    letter at offset 25 and fails with [KeyError], not with the error of
    [int]; the second has "O" there and fails too, so that no "off" is
    stored. *)
Lemma multiplexer_channel_after_lookups :
  (String.length "xxxxxxxxxxxxxxxxxxxxxxxxxxxxxx" = 30 /\
   String.get 25 "xxxxxxxxxxxxxxxxxxxxxxxxxxxxxx" = Some "x"%char /\
   "x"%char <> "O"%char /\ is_digit "x" = false /\
   state_to_dict "xxxxxxxxxxxxxxxxxxxxxxxxxxxxxx" = ([], Raise (KeyError "xx")) /\
   KeyError "xx" <> ValueError (InvalidLiteral "x")) /\
  (String.length "+1.2345E+00 VD02A1T9S1Q0MOD1K5" = 30 /\
   String.get 25 "+1.2345E+00 VD02A1T9S1Q0MOD1K5" = Some "O"%char /\
   state_to_dict "+1.2345E+00 VD02A1T9S1Q0MOD1K5" = ([], Raise (KeyError "T9"))).
Proof.
  repeat split; discriminate.
Qed.

(** C5. The integration time is decoded from the slice [18:20] by lookup in
    the table T1: "100 ms", T2: "1 s", T3: "1 s", T4: "10 s". For a raw status
    string of at least 30 characters, when the slice is one of the four codes
    every record the decoder returns holds the code's label under
    "integration time" (and the decoder does return a record when the mode
    code and the channel character are valid); when the slice is anything
    else the decoder fails with [KeyError]. *)
Theorem integration_time_decoding (s : string) :
  30 <= String.length s ->
  INT_TIMES = [ (VStr "T1", VStr "100 ms"); (VStr "T2", VStr "1 s");
                (VStr "T3", VStr "1 s"); (VStr "T4", VStr "10 s") ] /\
  (forall code label : string,
     In (code, label) [("T1", "100 ms"); ("T2", "1 s"); ("T3", "1 s"); ("T4", "10 s")] ->
     slice s 18 20 = code ->
     (forall t d, state_to_dict s = (t, Ok d) ->
        Py.get d "integration time" = Some (VStr label)) /\
     (Py.get CODE_TO_MODE (slice s 12 14) <> None ->
      (exists c, String.get 25 s = Some c /\ (c = "O"%char \/ is_digit c = true)) ->
        exists t d, state_to_dict s = (t, Ok d) /\
          Py.get d "integration time" = Some (VStr label))) /\
  (~ In (slice s 18 20) ["T1"; "T2"; "T3"; "T4"] ->
     exists k, state_to_dict s = ([], Raise (KeyError k))).
Proof.
  intros Hlen. split; [reflexivity |]. split.
  - intros code label Hin Hcode.
    assert (Hget : Py.get INT_TIMES (slice s 18 20) = Some (VStr label)).
    { rewrite Hcode. each_entry Hin ltac:(reflexivity). }
    split.
    + intros t d Hs.
      destruct (state_to_dict_Ok s t d Hs)
        as (m & i & c & x & y & k & _ & Hi & _ & _ & _ & _ & _ & ->).
      rewrite get_status_record_integration_time. congruence.
    + intros Hm (c & Hc & Hok).
      destruct (state_to_dict_long s Hlen Hm) as (c' & Hc' & Hdec);
        [congruence |].
      assert (c' = c) by congruence. subst c'.
      destruct (channel_value c) as [v |] eqn:E.
      * destruct Hdec as (t & d & Hs & _ & Hit). exists t, d. split; congruence.
      * apply channel_value_None in E. destruct E, Hok; congruence.
  - intros Hnot.
    assert (Hget : Py.get INT_TIMES (slice s 18 20) = None).
    { destruct (Py.get INT_TIMES (slice s 18 20)) as [v |] eqn:E; [| reflexivity].
      destruct (get_In _ _ _ E) as (k & Hin & Hk). exfalso. apply Hnot.
      each_entry Hin ltac:(apply eqb_VStr_r in Hk; injection Hk as ->; simpl; tauto). }
    rewrite state_to_dict_cases, Hget.
    destruct (Py.get CODE_TO_MODE _); eauto.
Qed.

(** A status string with "T2" at [18:20], the code no setting sends: it is
    decoded to "1 s". *)
Lemma integration_time_decoding_witness :
  exists t d, state_to_dict "+1.2345E+00 VD02A1T2S1Q0M3D1K5" = (t, Ok d) /\
    Py.get d "integration time" = Some (VStr "1 s").
Proof.
  destruct (integration_time_decoding "+1.2345E+00 VD02A1T2S1Q0M3D1K5")
    as (_ & Hknown & _).
  - simpl. lia.
  - apply (Hknown "T2" "1 s").
    + simpl. tauto.
    + reflexivity.
    + discriminate.
    + exists "3"%char. split; [reflexivity | right; reflexivity].
Defined.

(** C9. The decoder reads the raw status string only at the offsets 12 to 23,
    25, 27 and 29: two strings of at least 30 characters with the same
    characters at these offsets give the same result (the same record or the
    same exception, and the same printed line), whatever their other
    characters. *)
Theorem state_to_dict_reads_offsets (s1 s2 : string) :
  30 <= String.length s1 -> 30 <= String.length s2 ->
  (forall i, In i [12; 13; 14; 15; 16; 17; 18; 19; 20; 21; 22; 23; 25; 27; 29] ->
     String.get i s1 = String.get i s2) ->
  state_to_dict s1 = state_to_dict s2.
Proof.
  intros _ _ H.
  assert (Hslice : forall i j, In i [12; 14; 16; 18; 20; 22] -> j = i + 2 ->
                     slice s1 i j = slice s2 i j).
  { intros i j Hi ->. apply slice_ext. intros k Hk. apply H.
    assert (Hk' : k = i \/ k = S i) by lia.
    simpl in Hi.
    repeat (destruct Hi as [<- | Hi]; [destruct Hk' as [-> | ->]; simpl; tauto |]).
    contradiction. }
  rewrite !state_to_dict_cases.
  rewrite (Hslice 12 14), (Hslice 14 16), (Hslice 16 18), (Hslice 18 20),
    (Hslice 20 22), (Hslice 22 24) by (simpl; tauto).
  rewrite (H 25), (H 27), (H 29) by (simpl; tauto).
  reflexivity.
Qed.

(** Two status strings that differ in the measurement (offsets 0 to 11) and
    at offsets 24, 26 and 28 are decoded alike. *)
Lemma state_to_dict_reads_offsets_witness :
  state_to_dict "+1.2345E+00 VD02A1T3S1Q0M3D1K5" =
  state_to_dict "-9.8765E-03_VD02A1T3S1Q0?3?1?5".
Proof.
  apply state_to_dict_reads_offsets.
  - simpl. lia.
  - simpl. lia.
  - intros i Hi. simpl in Hi.
    repeat (destruct Hi as [<- | Hi]; [reflexivity |]). contradiction.
Defined.

(** ** The settings *)

Lemma eqb_VStr_false (v : value) (s : string) : v <> VStr s -> eqb v (VStr s) = false.
Proof.
  intros H. destruct (eqb v (VStr s)) eqn:E; [| reflexivity].
  apply eqb_VStr_r in E. contradiction.
Qed.

(** In a dictionary whose keys are all strings, a value that is none of the
    keys is not found. *)
Lemma get_None_string_keys (d : dict) (v : value) :
  Forall (fun kv => exists s, fst kv = VStr s) d ->
  ~ In v (map fst d) -> Py.get d v = None.
Proof.
  induction 1 as [| [k w] d (s & Hk) _ IH]; simpl; [reflexivity |].
  intros Hnot. simpl in Hk. subst k.
  rewrite eqb_VStr_false by (intros ->; tauto). apply IH. tauto.
Qed.

Lemma percent_s (v : value) : percent "%s" v = ret (str v).
Proof.
  cbn. unfold ret. do 2 f_equal.
  induction (str v) as [| c s IH]; simpl; [reflexivity | now f_equal].
Qed.

(** A property validated by [strict_discrete_set] rejects a value that is no
    key of its table, before anything is sent. *)
Lemma fset_strict_rejects {G} (p : property G) (command : string) (v : value) :
  set_command p = Some command ->
  validator p = strict_discrete_set ->
  Py.get (values p) v = None ->
  fset p v = ([], Raise (ValueError (NotInDiscreteSet v))).
Proof.
  intros Hc Hv Hg. unfold fset, strict_discrete_set, contains.
  rewrite Hc, Hv. unfold strict_discrete_set, contains. now rewrite Hg.
Qed.

(** A property validated by [strict_discrete_set] with [map_values] sends
    the code its table gives for the value. *)
Lemma fset_strict_sends {G} (p : property G) (v code : value) :
  set_command p = Some "%s" ->
  validator p = strict_discrete_set ->
  set_process p = identity ->
  map_values p = true ->
  Py.get (values p) v = Some code ->
  fset p v = ([Send (str code)], Ok tt).
Proof.
  intros Hc Hv Hs Hm Hg. unfold fset.
  rewrite Hc, Hv, Hs, Hm. unfold strict_discrete_set, contains, getitem.
  rewrite Hg. cbn -[percent]. rewrite Hg. cbn -[percent].
  now rewrite percent_s.
Qed.

(** C6. Setting [integration_time] to a value that is none of "100ms", "1s"
    and "10s" fails with the invalid-choice error of [strict_discrete_set],
    and nothing is written to the instrument. *)
Theorem integration_time_invalid_choice (v : value) :
  ~ In v [VStr "100ms"; VStr "1s"; VStr "10s"] ->
  fset integration_time v = ([], Raise (ValueError (NotInDiscreteSet v))).
Proof.
  intros Hnot. apply (fset_strict_rejects integration_time "%s"); try reflexivity.
  apply get_None_string_keys; [| exact Hnot].
  repeat constructor; simpl; eauto.
Qed.

(** "2s" is no integration time of the instrument. *)
Lemma integration_time_invalid_choice_witness :
  fset integration_time "2s" = ([], Raise (ValueError (NotInDiscreteSet "2s"))).
Proof.
  apply integration_time_invalid_choice. simpl. intuition discriminate.
Defined.

(** The three integration times and the codes they send. *)
Lemma integration_time_codes :
  fset integration_time "100ms" = ([Send "T1"], Ok tt) /\
  fset integration_time "1s" = ([Send "T3"], Ok tt) /\
  fset integration_time "10s" = ([Send "T4"], Ok tt).
Proof. repeat split. Qed.

(** C7. Setting [autorange] to [True] sends "A1", the code that "enabled"
    sends, and setting it to [False] sends "A0", the code that "disabled"
    sends; the validator accepts all four values. In the other direction, the
    decoder maps the slice [16:18] of the status string to "enabled" when it
    is "A1" and to "disabled" when it is anything else: it returns a record
    that says so for every string of at least 30 characters with a known mode
    code, a known integration-time code and a valid channel character, and no
    record it returns says otherwise. *)
Theorem autorange_codes :
  (fset autorange (VBool true) = ([Send "A1"], Ok tt) /\
   fset autorange (VStr "enabled") = ([Send "A1"], Ok tt) /\
   fset autorange (VBool false) = ([Send "A0"], Ok tt) /\
   fset autorange (VStr "disabled") = ([Send "A0"], Ok tt)) /\
  Forall (fun v => validator autorange v (values autorange) = ret v)
    [VBool true; VStr "enabled"; VBool false; VStr "disabled"] /\
  (forall s,
     30 <= String.length s ->
     Py.get CODE_TO_MODE (slice s 12 14) <> None ->
     Py.get INT_TIMES (slice s 18 20) <> None ->
     (exists c, String.get 25 s = Some c /\ (c = "O"%char \/ is_digit c = true)) ->
     exists t d, state_to_dict s = (t, Ok d) /\
       (slice s 16 18 = "A1" -> Py.get d "autoranging" = Some (VStr "enabled")) /\
       (slice s 16 18 <> "A1" -> Py.get d "autoranging" = Some (VStr "disabled"))) /\
  (forall s t d, state_to_dict s = (t, Ok d) ->
     (slice s 16 18 = "A1" -> Py.get d "autoranging" = Some (VStr "enabled")) /\
     (slice s 16 18 <> "A1" -> Py.get d "autoranging" = Some (VStr "disabled"))).
Proof.
  assert (Hrecord : forall s t d, state_to_dict s = (t, Ok d) ->
            (slice s 16 18 = "A1" -> Py.get d "autoranging" = Some (VStr "enabled")) /\
            (slice s 16 18 <> "A1" -> Py.get d "autoranging" = Some (VStr "disabled"))).
  { intros s t d Hs.
    destruct (state_to_dict_Ok s t d Hs)
      as (m & i & c & x & y & k & _ & _ & _ & _ & _ & _ & _ & ->).
    rewrite get_status_record_autoranging.
    destruct (String.eqb_spec (slice s 16 18) "A1"); split; congruence. }
  split; [repeat split |]. split; [repeat constructor |]. split; [| exact Hrecord].
  intros s Hlen Hm Hi (c & Hc & Hok).
  destruct (state_to_dict_long s Hlen Hm Hi) as (c' & Hc' & Hdec).
  assert (c' = c) by congruence. subst c'.
  destruct (channel_value c) as [x |] eqn:E.
  - destruct Hdec as (t & d & Hs & _). exists t, d. split; [exact Hs |].
    now apply Hrecord with t.
  - apply channel_value_None in E. destruct E, Hok; congruence.
Qed.

(** Status strings with "A1", with "A0" and with "A2" at [16:18]: the first
    is decoded to "enabled", the other two to "disabled". *)
Lemma autorange_codes_witness :
  (exists t d, state_to_dict "+1.2345E+00 VD02A1T3S1Q0M3D1K5" = (t, Ok d) /\
     Py.get d "autoranging" = Some (VStr "enabled")) /\
  (exists t d, state_to_dict "+1.2345E+00 VD02A0T3S1Q0M3D1K5" = (t, Ok d) /\
     Py.get d "autoranging" = Some (VStr "disabled")) /\
  (exists t d, state_to_dict "+1.2345E+00 VD02A2T3S1Q0M3D1K5" = (t, Ok d) /\
     Py.get d "autoranging" = Some (VStr "disabled")).
Proof.
  pose proof (proj1 (proj2 (proj2 autorange_codes))) as Hdecode.
  repeat split.
  - destruct (Hdecode "+1.2345E+00 VD02A1T3S1Q0M3D1K5") as (t & d & Hs & Hon & _);
      [simpl; lia | discriminate | discriminate
      | exists "3"%char; split; [reflexivity | right; reflexivity] |].
    exists t, d. split; [exact Hs | now apply Hon].
  - destruct (Hdecode "+1.2345E+00 VD02A0T3S1Q0M3D1K5") as (t & d & Hs & _ & Hoff);
      [simpl; lia | discriminate | discriminate
      | exists "3"%char; split; [reflexivity | right; reflexivity] |].
    exists t, d. split; [exact Hs | apply Hoff; discriminate].
  - destruct (Hdecode "+1.2345E+00 VD02A2T3S1Q0M3D1K5") as (t & d & Hs & _ & Hoff);
      [simpl; lia | discriminate | discriminate
      | exists "3"%char; split; [reflexivity | right; reflexivity] |].
    exists t, d. split; [exact Hs | apply Hoff; discriminate].
Defined.

(** [old_mode], the sibling of [mode] that is declared with the validator and
    the table: it sends the code of each of the 9 mode names and rejects
    every other value before anything is sent. *)
Lemma old_mode_setter :
  (forall m c : value, In (m, c) MODES -> fset old_mode m = ([Send (str c)], Ok tt)) /\
  (forall v : value, ~ In v (map fst MODES) ->
     fset old_mode v = ([], Raise (ValueError (NotInDiscreteSet v)))).
Proof.
  split.
  - intros m c Hin. each_entry Hin ltac:(reflexivity).
  - intros v Hnot. apply (fset_strict_rejects old_mode "%s"); try reflexivity.
    apply get_None_string_keys; [| exact Hnot].
    repeat constructor; simpl; eauto.
Qed.

(** C8 fails on [mode]. The property is declared with no validator, no table
    and no value mapping, and with the property objects [get_mode] and
    [set_mode] as its processing functions: setting it to a mode name such
    as "kelvin" raises [TypeError] and sends nothing (no "TK"), and setting
    it to a value that is no mode name raises the same [TypeError], not the
    invalid-choice error. The sibling [old_mode] does both things the claim
    says. *)
Theorem mode_setter_skips_validation :
  (forall v : value,
     fset mode v = ([], Raise (TypeError "'property' object is not callable"))) /\
  fset mode "kelvin" <> ([Send "TK"], Ok tt) /\
  fset mode "bogus" <> ([], Raise (ValueError (NotInDiscreteSet "bogus"))) /\
  (forall v : value, validator mode v (values mode) = ret v) /\
  values mode = [] /\ map_values mode = false /\
  fset old_mode "kelvin" = ([Send "TK"], Ok tt) /\
  fset old_mode "bogus" = ([], Raise (ValueError (NotInDiscreteSet "bogus"))).
Proof.
  repeat split; discriminate.
Qed.

(** ** The measurements *)

(** C10. [voltage], [resistance], [current] and [temperature] are the same
    measurement: each sends the query "P0" and returns the slice [:12] of the
    raw response, which is its first 12 characters (the whole response when
    it has fewer), so that for every raw response the four are equal. *)
Theorem measurements_first_12 (raw : string) :
  fget voltage raw = ([Send "P0"], Ok (slice raw 0 12)) /\
  fget resistance raw = fget voltage raw /\
  fget current raw = fget voltage raw /\
  fget temperature raw = fget voltage raw /\
  String.length (slice raw 0 12) = Nat.min 12 (String.length raw) /\
  exists rest, raw = (slice raw 0 12 ++ rest)%string.
Proof.
  repeat split.
  - unfold slice. rewrite substring_length. lia.
  - eexists. apply slice_prefix.
Qed.

(** ** More on the status decoder *)

Lemma known_mode_code (x : string) :
  Py.get CODE_TO_MODE (VStr x) <> None <->
  In x ["VD"; "VA"; "O2"; "O4"; "ID"; "IA"; "TC"; "TF"; "TK"].
Proof.
  split.
  - intros H. destruct (known_code _ _ H) as (v & E).
    destruct (get_In _ _ _ E) as (k & Hin & Hk).
    each_entry Hin ltac:(apply eqb_VStr_r in Hk; injection Hk as ->; simpl; tauto).
  - intros H. simpl in H.
    repeat (destruct H as [<- | H]; [discriminate |]). contradiction.
Qed.

Lemma known_time_code (x : string) :
  Py.get INT_TIMES (VStr x) <> None <-> In x ["T1"; "T2"; "T3"; "T4"].
Proof.
  split.
  - intros H. destruct (known_code _ _ H) as (v & E).
    destruct (get_In _ _ _ E) as (k & Hin & Hk).
    each_entry Hin ltac:(apply eqb_VStr_r in Hk; injection Hk as ->; simpl; tauto).
  - intros H. simpl in H.
    repeat (destruct H as [<- | H]; [discriminate |]). contradiction.
Qed.

Lemma channel_value_Some (c : ascii) :
  channel_value c <> None <-> c = "O"%char \/ is_digit c = true.
Proof.
  split.
  - intros H. destruct (Ascii.eqb_spec c "O"); [now left | right].
    destruct (is_digit c) eqn:D; [reflexivity |].
    elim H. now apply channel_value_None.
  - intros H E. apply channel_value_None in E. destruct E, H; congruence.
Qed.

(** What a valid channel character is decoded to. *)
Lemma channel_value_range (c : ascii) (x : value) :
  channel_value c = Some x ->
  x = VStr "off" \/ exists n : Z, x = VInt n /\ (0 <= n <= 9)%Z.
Proof.
  unfold channel_value. destruct (c =? "O")%char; [intros [= <-]; now left |].
  destruct (is_digit c) eqn:D; [| discriminate].
  intros [= <-]. right. eexists. split; [reflexivity |].
  unfold is_digit in D. apply andb_prop in D. destruct D as [D1 D2].
  apply Nat.leb_le in D1, D2. lia.
Qed.

Lemma get_Some_lt (s : string) (n : nat) (c : ascii) :
  String.get n s = Some c -> n < String.length s.
Proof.
  intros H. destruct (Nat.lt_ge_cases n (String.length s)) as [Hlt | Hge];
    [assumption |].
  apply get_None_length in Hge. congruence.
Qed.

(** X1. The decoder returns a record exactly for the strings of at least 30
    characters whose slice [12:14] is one of the 9 mode codes, whose slice
    [18:20] is one of T1 to T4 and whose character at offset 25 is "O" or a
    decimal digit; the other fields are never a reason to fail. *)
Theorem state_to_dict_succeeds_iff (s : string) :
  (exists t d, state_to_dict s = (t, Ok d)) <->
  30 <= String.length s /\
  In (slice s 12 14) ["VD"; "VA"; "O2"; "O4"; "ID"; "IA"; "TC"; "TF"; "TK"] /\
  In (slice s 18 20) ["T1"; "T2"; "T3"; "T4"] /\
  exists c, String.get 25 s = Some c /\
    (c = "O"%char \/ In c ["0"; "1"; "2"; "3"; "4"; "5"; "6"; "7"; "8"; "9"]%char).
Proof.
  split.
  - intros (t & d & Hs).
    destruct (state_to_dict_Ok s t d Hs)
      as (m & i & c & x & y & k & Hm & Hi & Hc & Hx & _ & Hk & _).
    split; [apply get_Some_lt in Hk; lia |].
    split; [apply known_mode_code; congruence |].
    split; [apply known_time_code; congruence |].
    exists c. split; [assumption |].
    rewrite <- is_digit_spec. apply channel_value_Some. congruence.
  - intros (Hlen & Hm & Hi & c & Hc & Hok).
    apply known_mode_code in Hm. apply known_time_code in Hi.
    rewrite <- is_digit_spec in Hok. apply channel_value_Some in Hok.
    destruct (state_to_dict_long s Hlen Hm Hi) as (c' & Hc' & Hdec).
    assert (c' = c) by congruence. subst c'.
    destruct (channel_value c); [| congruence].
    destruct Hdec as (t & d & Hs & _). eauto.
Qed.

(** X2. Every record the decoder returns has the same nine keys, each once,
    in the order the decoder stores them; the channel is under the key the
    source spells "mutiplexer channel". *)
Theorem state_to_dict_keys (s : string) (t : list event) (d : dict) :
  state_to_dict s = (t, Ok d) ->
  map fst d =
    [ VStr "mode"; VStr "range"; VStr "autoranging"; VStr "integration time";
      VStr "continuous"; VStr "SRQ status"; VStr "mutiplexer channel";
      VStr "display mode"; VStr "latest pressed key" ] /\
  NoDup (map fst d) /\
  Py.get d "multiplexer channel" = None.
Proof.
  intros Hs.
  destruct (state_to_dict_Ok s t d Hs)
    as (m & i & c & x & y & k & _ & _ & _ & _ & _ & _ & _ & ->).
  split; [reflexivity |]. split; [| reflexivity].
  repeat constructor; simpl; intuition discriminate.
Qed.

(** The keys of the record decoded from a full status string. *)
Lemma state_to_dict_keys_witness :
  exists d, state_to_dict "+1.2345E+00 VD02A1T3S1Q0M3D1K5" = ([Print "1"], Ok d) /\
    List.length (map fst d) = 9 /\ Py.get d "multiplexer channel" = None.
Proof.
  eexists. split; [reflexivity |].
  destruct (state_to_dict_keys "+1.2345E+00 VD02A1T3S1Q0M3D1K5" [Print "1"] _ eq_refl)
    as (Hkeys & _ & Hnone).
  split; [now rewrite Hkeys | exact Hnone].
Defined.

(** X3. In every record the decoder returns each field is in its own small
    domain: the mode is one of the 9 mode names, the range a string of two
    characters, autoranging "enabled" or "disabled", the integration time
    "100 ms", "1 s" or "10 s", continuous "started" or "stopped", the SRQ
    status "without" or "with", the channel the string "off" or an integer
    from 0 to 9, the display mode "on" or "off", and the latest pressed key a
    string of one character. *)
Theorem state_to_dict_field_domains (s : string) (t : list event) (d : dict) :
  state_to_dict s = (t, Ok d) ->
  (exists m : string, Py.get d "mode" = Some (VStr m) /\
     In m ["direct voltage"; "alternating voltage"; "2-wire resistance";
           "4-wire resistance"; "direct current"; "alternating current";
           "celsius"; "farenheit"; "kelvin"]) /\
  (exists r : string, Py.get d "range" = Some (VStr r) /\ String.length r = 2) /\
  (exists a : string, Py.get d "autoranging" = Some (VStr a) /\
     In a ["enabled"; "disabled"]) /\
  (exists i : string, Py.get d "integration time" = Some (VStr i) /\
     In i ["100 ms"; "1 s"; "10 s"]) /\
  (exists c : string, Py.get d "continuous" = Some (VStr c) /\
     In c ["started"; "stopped"]) /\
  (exists q : string, Py.get d "SRQ status" = Some (VStr q) /\
     In q ["without"; "with"]) /\
  (exists x : value, Py.get d "mutiplexer channel" = Some x /\
     (x = VStr "off" \/ exists n : Z, x = VInt n /\ (0 <= n <= 9)%Z)) /\
  (exists o : string, Py.get d "display mode" = Some (VStr o) /\
     In o ["on"; "off"]) /\
  (exists k : string, Py.get d "latest pressed key" = Some (VStr k) /\
     String.length k = 1).
Proof.
  intros Hs.
  destruct (state_to_dict_Ok s t d Hs)
    as (m & i & c & x & y & k & Hm & Hi & _ & Hx & _ & Hk & _ & ->).
  apply get_Some_lt in Hk.
  repeat split.
  - destruct (get_In _ _ _ Hm) as (code & Hin & _).
    each_entry Hin ltac:(eexists; split; [reflexivity | simpl; tauto]).
  - eexists. split; [reflexivity |].
    unfold slice. rewrite substring_length. lia.
  - eexists. split; [reflexivity |].
    destruct (slice s 16 18 =? "A1"); simpl; tauto.
  - destruct (get_In _ _ _ Hi) as (code & Hin & _).
    each_entry Hin ltac:(eexists; split; [reflexivity | simpl; tauto]).
  - eexists. split; [reflexivity |].
    destruct (slice s 20 22 =? "S1"); simpl; tauto.
  - eexists. split; [reflexivity |].
    destruct (slice s 22 24 =? "Q0"); simpl; tauto.
  - exists x. split; [reflexivity |]. now apply channel_value_range with c.
  - eexists. split; [reflexivity |].
    destruct (y =? "1")%char; simpl; tauto.
  - eexists. split; reflexivity.
Qed.

(** The channel of a status string with "7" at offset 25 is in range. *)
Lemma state_to_dict_field_domains_witness :
  exists x : value,
    Py.get (status_record "kelvin" "11" "disabled" "10 s" "stopped" "with"
              (VInt 7) "off" "9") "mutiplexer channel" = Some x /\
    (x = VStr "off" \/ exists n : Z, x = VInt n /\ (0 <= n <= 9)%Z).
Proof.
  apply (state_to_dict_field_domains "-0.0001E-03 TK11A0T4S0Q1M7D0K9" [Print "0"]).
  reflexivity.
Defined.

(** X4. On a string of at least 30 characters the decoder never raises
    [IndexError]: it returns a record, or it raises [KeyError] with the slice
    [12:14] or the slice [18:20] as the missing key, or the [ValueError] of
    [int] for the character at offset 25; and a long string that fails has
    printed nothing. *)
Theorem long_status_outcomes (s : string) :
  30 <= String.length s ->
  ((exists t d, state_to_dict s = (t, Ok d)) \/
   state_to_dict s = ([], Raise (KeyError (slice s 12 14))) \/
   state_to_dict s = ([], Raise (KeyError (slice s 18 20))) \/
   exists c, String.get 25 s = Some c /\
     state_to_dict s = ([], Raise (ValueError (InvalidLiteral (str1 c))))) /\
  (forall t, state_to_dict s <> (t, Raise IndexError)).
Proof.
  intros Hlen.
  destruct (get_Some_length s 25 ltac:(lia)) as (c & Hc).
  destruct (get_Some_length s 27 ltac:(lia)) as (y & Hy).
  destruct (get_Some_length s 29 ltac:(lia)) as (k & Hk).
  rewrite state_to_dict_cases, Hc, Hy, Hk.
  destruct (Py.get CODE_TO_MODE _); [| split; [tauto | discriminate]].
  destruct (Py.get INT_TIMES _); [| split; [tauto | discriminate]].
  destruct (channel_value c); split; try discriminate.
  - left. eauto.
  - right. right. right. eauto.
Qed.

(** A string of 30 characters with an unknown integration-time code: one of
    the four outcomes, here the second [KeyError]. *)
Lemma long_status_outcomes_witness :
  (exists t d, state_to_dict "+1.2345E+00 VD02A1T9S1Q0M3D1K5" = (t, Ok d)) \/
  state_to_dict "+1.2345E+00 VD02A1T9S1Q0M3D1K5"
    = ([], Raise (KeyError (slice "+1.2345E+00 VD02A1T9S1Q0M3D1K5" 12 14))) \/
  state_to_dict "+1.2345E+00 VD02A1T9S1Q0M3D1K5"
    = ([], Raise (KeyError (slice "+1.2345E+00 VD02A1T9S1Q0M3D1K5" 18 20))) \/
  exists c, String.get 25 "+1.2345E+00 VD02A1T9S1Q0M3D1K5" = Some c /\
    state_to_dict "+1.2345E+00 VD02A1T9S1Q0M3D1K5"
      = ([], Raise (ValueError (InvalidLiteral (str1 c)))).
Proof.
  apply (long_status_outcomes "+1.2345E+00 VD02A1T9S1Q0M3D1K5"). simpl. lia.
Defined.

(** The line the decoder prints, with the condition under which it prints
    it. *)
Lemma state_to_dict_trace_cases (s : string) (t : list event) (r : result dict) :
  state_to_dict s = (t, r) ->
  (t = [] /\
   ~ (Py.get CODE_TO_MODE (slice s 12 14) <> None /\
      Py.get INT_TIMES (slice s 18 20) <> None /\
      (exists c, String.get 25 s = Some c /\ (c = "O"%char \/ is_digit c = true)) /\
      28 <= String.length s)) \/
  ((exists shown, String.get 27 s = Some shown /\ t = [Print (str1 shown)]) /\
   Py.get CODE_TO_MODE (slice s 12 14) <> None /\
   Py.get INT_TIMES (slice s 18 20) <> None /\
   (exists c, String.get 25 s = Some c /\ (c = "O"%char \/ is_digit c = true)) /\
   28 <= String.length s).
Proof.
  rewrite state_to_dict_cases.
  destruct (Py.get CODE_TO_MODE _) as [m |];
    [| intros [= <- _]; left; split; [reflexivity | tauto]].
  destruct (Py.get INT_TIMES _) as [i |];
    [| intros [= <- _]; left; split; [reflexivity | tauto]].
  destruct (String.get 25 s) as [c |] eqn:Hc;
    [| intros [= <- _]; left; split; [reflexivity |];
       intros (_ & _ & (c & Hc' & _) & _); discriminate].
  destruct (channel_value c) as [x |] eqn:Hx;
    [| intros [= <- _]; left; split; [reflexivity |];
       intros (_ & _ & (c' & Hc' & Hok) & _);
       injection Hc' as <-; apply channel_value_Some in Hok; congruence].
  assert (Hok : c = "O"%char \/ is_digit c = true)
    by (apply channel_value_Some; congruence).
  destruct (String.get 27 s) as [y |] eqn:Hy.
  - intros Hs. right.
    assert (Ht : t = [Print (str1 y)])
      by (destruct (String.get 29 s); injection Hs as <- _; reflexivity).
    apply get_Some_lt in Hy.
    repeat split; try discriminate; eauto.
  - intros [= <- _]. left. split; [reflexivity |].
    intros (_ & _ & _ & Hlen). apply get_None_length in Hy. lia.
Qed.

(** X5. The decoder writes nothing to the adapter and prints at most one
    line, the character at offset 27. It prints it exactly when the two codes
    are known, the channel character is valid and the string has at least 28
    characters, so also for a string of 28 or 29 characters, on which it then
    fails. *)
Theorem state_to_dict_trace (s : string) (t : list event) (r : result dict) :
  state_to_dict s = (t, r) ->
  (t = [] \/ exists shown, String.get 27 s = Some shown /\ t = [Print (str1 shown)]) /\
  (t <> [] <->
   Py.get CODE_TO_MODE (slice s 12 14) <> None /\
   Py.get INT_TIMES (slice s 18 20) <> None /\
   (exists c, String.get 25 s = Some c /\ (c = "O"%char \/ is_digit c = true)) /\
   28 <= String.length s).
Proof.
  intros Hs.
  destruct (state_to_dict_trace_cases s t r Hs)
    as [[-> Hnot] | [(shown & Hshown & ->) Hcond]].
  - split; [now left |]. split; [congruence | intros H; now elim Hnot].
  - split; [right; eauto |]. split; [intros _; exact Hcond | discriminate].
Qed.

(** A string cut after 28 characters: the decoder prints the character at
    offset 27 and then fails. *)
Lemma state_to_dict_trace_witness :
  [Print "1"] = [] \/
  exists shown, String.get 27 "+1.2345E+00 VD02A1T3S1Q0M3D1" = Some shown /\
    [Print "1"] = [Print (str1 shown)].
Proof.
  apply (state_to_dict_trace "+1.2345E+00 VD02A1T3S1Q0M3D1" [Print "1"] (Raise IndexError)).
  reflexivity.
Defined.

Lemma slice2_ext (s1 s2 : string) (i j : nat) :
  j = i + 2 ->
  String.get i s1 = String.get i s2 ->
  String.get (S i) s1 = String.get (S i) s2 ->
  slice s1 i j = slice s2 i j.
Proof.
  intros -> H0 H1. apply slice_ext. intros k Hk.
  assert (Hk' : k = i \/ k = S i) by lia. now destruct Hk' as [-> | ->].
Qed.

(** The decoder's result is a function of the characters at the offsets it
    reads, whatever the lengths of the strings. *)
Lemma state_to_dict_ext (s1 s2 : string) :
  (forall i, In i [12; 13; 14; 15; 16; 17; 18; 19; 20; 21; 22; 23; 25; 27; 29] ->
     String.get i s1 = String.get i s2) ->
  state_to_dict s1 = state_to_dict s2.
Proof.
  intros H. rewrite !state_to_dict_cases.
  rewrite (slice2_ext s1 s2 12 14), (slice2_ext s1 s2 14 16), (slice2_ext s1 s2 16 18),
    (slice2_ext s1 s2 18 20), (slice2_ext s1 s2 20 22), (slice2_ext s1 s2 22 24)
    by (reflexivity || (apply H; simpl; tauto)).
  rewrite (H 25), (H 27), (H 29) by (simpl; tauto).
  reflexivity.
Qed.

Lemma get_append_ge (m rest : string) (i : nat) :
  String.length m <= i ->
  String.get i (m ++ rest)%string = String.get (i - String.length m) rest.
Proof.
  intros H. rewrite (append_correct2 m rest (i - String.length m)).
  f_equal. lia.
Qed.

Lemma substring_append_prefix (m rest : string) :
  substring 0 (String.length m) (m ++ rest)%string = m.
Proof.
  induction m as [| c m IH]; simpl.
  - now destruct rest.
  - now f_equal.
Qed.

(** The two tables are inverse: the name a code is decoded to is encoded to
    that code. *)
Lemma MODES_inverse (c m : value) :
  Py.get CODE_TO_MODE c = Some m -> Py.get MODES m = Some c.
Proof.
  intros H. destruct (get_In _ _ _ H) as (k & Hin & Hk).
  each_entry Hin ltac:(apply eqb_VStr_r in Hk; subst c; reflexivity).
Qed.

(** X6. The codes T2 and T3 are decoded alike: two status strings with T2 and
    T3 at [18:20] and the same characters at the other offsets the decoder
    reads give the same result, so the record does not tell which of the two
    the instrument reported. *)
Theorem T2_decodes_as_T3 (s1 s2 : string) :
  slice s1 18 20 = "T2" -> slice s2 18 20 = "T3" ->
  (forall i, In i [12; 13; 14; 15; 16; 17; 20; 21; 22; 23; 25; 27; 29] ->
     String.get i s1 = String.get i s2) ->
  state_to_dict s1 = state_to_dict s2.
Proof.
  intros H1 H2 H. rewrite !state_to_dict_cases, H1, H2.
  rewrite (slice2_ext s1 s2 12 14), (slice2_ext s1 s2 14 16), (slice2_ext s1 s2 16 18),
    (slice2_ext s1 s2 20 22), (slice2_ext s1 s2 22 24)
    by (reflexivity || (apply H; simpl; tauto)).
  rewrite (H 25), (H 27), (H 29) by (simpl; tauto).
  reflexivity.
Qed.

(** Two status strings that differ only in the integration-time code. *)
Lemma T2_decodes_as_T3_witness :
  state_to_dict "+1.2345E+00 VD02A1T2S1Q0M3D1K5" =
  state_to_dict "+1.2345E+00 VD02A1T3S1Q0M3D1K5".
Proof.
  apply T2_decodes_as_T3; try reflexivity.
  intros i Hi. simpl in Hi.
  repeat (destruct Hi as [<- | Hi]; [reflexivity |]). contradiction.
Defined.

(** X7. Decoding and the mode table round-trip: the mode name in a record the
    decoder returns is a key of [MODES], and [MODES] maps it back to the very
    code the status string holds at [12:14]. *)
Theorem decoded_mode_round_trip (s : string) (t : list event) (d : dict) :
  state_to_dict s = (t, Ok d) ->
  exists m, Py.get d "mode" = Some m /\ getitem MODES m = ret (VStr (slice s 12 14)).
Proof.
  intros Hs.
  destruct (state_to_dict_Ok s t d Hs)
    as (m & i & c & x & y & k & Hm & _ & _ & _ & _ & _ & _ & ->).
  exists m. split; [reflexivity |].
  apply getitem_ret. now apply MODES_inverse.
Qed.

(** The status string of a 4-wire resistance measurement: the decoded name is
    encoded to "O4" again. *)
Lemma decoded_mode_round_trip_witness :
  exists m,
    Py.get (status_record "4-wire resistance" "03" "disabled" "100 ms" "stopped"
              "without" "off" "on" "2") "mode" = Some m /\
    getitem MODES m = ret (VStr (slice "+1.0000E+03 O403A0T1S0Q0MOD1K2" 12 14)).
Proof.
  apply (decoded_mode_round_trip "+1.0000E+03 O403A0T1S0Q0MOD1K2" [Print "1"]).
  reflexivity.
Defined.

(** X8. A response to "P0" is read in two disjoint parts: the measurement
    properties return its first 12 characters, and the status decoder depends
    only on what follows them. For a measurement part of 12 characters, the
    slice [:12] of the response is that part, and the decoder gives the same
    result whatever the measurement part is. *)
Theorem measurement_and_status_parts (m m' rest : string) :
  String.length m = 12 -> String.length m' = 12 ->
  slice (m ++ rest)%string 0 12 = m /\
  call first12 (m ++ rest)%string = ret m /\
  state_to_dict (m ++ rest)%string = state_to_dict (m' ++ rest)%string.
Proof.
  intros Hm Hm'.
  assert (Hslice : slice (m ++ rest)%string 0 12 = m).
  { unfold slice. rewrite Nat.sub_0_r, <- Hm. apply substring_append_prefix. }
  split; [exact Hslice |]. split; [simpl; now rewrite Hslice |].
  apply state_to_dict_ext. intros i Hi.
  assert (Hge : 12 <= i)
    by (simpl in Hi; repeat (destruct Hi as [<- | Hi]; [lia |]); contradiction).
  rewrite !get_append_ge by lia. now rewrite Hm, Hm'.
Qed.

(** Two responses with the same status and different measurements. *)
Lemma measurement_and_status_parts_witness :
  slice ("+1.2345E+00 " ++ "VD02A1T3S1Q0M3D1K5")%string 0 12 = "+1.2345E+00 " /\
  call first12 ("+1.2345E+00 " ++ "VD02A1T3S1Q0M3D1K5")%string = ret "+1.2345E+00 " /\
  state_to_dict ("+1.2345E+00 " ++ "VD02A1T3S1Q0M3D1K5")%string =
  state_to_dict ("-9.9999E-09 " ++ "VD02A1T3S1Q0M3D1K5")%string.
Proof.
  apply measurement_and_status_parts; reflexivity.
Defined.

(** ** The settings and the decoder together *)

(** The setter of a property declared with [strict_discrete_set], its table
    and [map_values=True]: one command, the code of the value, or the
    invalid-choice error and no command. *)
Lemma fset_strict_mapped {G} (p : property G) (v : value) :
  set_command p = Some "%s" ->
  validator p = strict_discrete_set ->
  set_process p = identity ->
  map_values p = true ->
  fset p v =
    match Py.get (values p) v with
    | Some code => ([Send (str code)], Ok tt)
    | None => ([], Raise (ValueError (NotInDiscreteSet v)))
    end.
Proof.
  intros Hc Hv Hs Hm. destruct (Py.get (values p) v) as [code |] eqn:E.
  - now apply fset_strict_sends.
  - now apply (fset_strict_rejects p "%s").
Qed.

(** X9. Writing back the mode that was read changes nothing: for every record
    the decoder returns, setting [old_mode] to the record's mode sends exactly
    the code the status string holds at [12:14]. *)
Theorem old_mode_resends_decoded_mode (s : string) (t : list event) (d : dict) :
  state_to_dict s = (t, Ok d) ->
  exists m, Py.get d "mode" = Some m /\
    fset old_mode m = ([Send (slice s 12 14)], Ok tt).
Proof.
  intros Hs.
  destruct (state_to_dict_Ok s t d Hs)
    as (m & i & c & x & y & k & Hm & _ & _ & _ & _ & _ & _ & ->).
  exists m. split; [reflexivity |].
  apply (fset_strict_sends old_mode m (VStr (slice s 12 14))); try reflexivity.
  now apply MODES_inverse.
Qed.

(** The mode read from a status string with "TC" is sent back as "TC". *)
Lemma old_mode_resends_decoded_mode_witness :
  exists m,
    Py.get (status_record "celsius" "02" "enabled" "1 s" "started" "without"
              (VInt 3) "on" "5") "mode" = Some m /\
    fset old_mode m = ([Send (slice "+2.1500E+01 TC02A1T3S1Q0M3D1K5" 12 14)], Ok tt).
Proof.
  apply (old_mode_resends_decoded_mode "+2.1500E+01 TC02A1T3S1Q0M3D1K5" [Print "1"]).
  reflexivity.
Defined.

(** X10. The integration time that is read cannot be written back: the
    decoder's labels are "100 ms", "1 s" and "10 s", the setting's names are
    "100ms", "1s" and "10s", so for every record the decoder returns, setting
    [integration_time] to the record's integration time is rejected as an
    invalid choice and sends nothing. *)
Theorem integration_time_rejects_decoded_label (s : string) (t : list event) (d : dict) :
  state_to_dict s = (t, Ok d) ->
  exists v, Py.get d "integration time" = Some v /\
    fset integration_time v = ([], Raise (ValueError (NotInDiscreteSet v))).
Proof.
  intros Hs.
  destruct (state_to_dict_Ok s t d Hs)
    as (m & i & c & x & y & k & _ & Hi & _ & _ & _ & _ & _ & ->).
  exists i. split; [reflexivity |].
  destruct (get_In _ _ _ Hi) as (code & Hin & _).
  each_entry Hin ltac:(reflexivity).
Qed.

(** The label "10 s" read from a status string is no value of the setting. *)
Lemma integration_time_rejects_decoded_label_witness :
  exists v,
    Py.get (status_record "direct voltage" "02" "enabled" "10 s" "started" "without"
              (VInt 3) "on" "5") "integration time" = Some v /\
    fset integration_time v = ([], Raise (ValueError (NotInDiscreteSet v))).
Proof.
  apply (integration_time_rejects_decoded_label
           "+1.2345E+00 VD02A1T4S1Q0M3D1K5" [Print "1"]).
  reflexivity.
Defined.

(** X11. The autoranging that is read can be written back: for every record
    the decoder returns, setting [autorange] to the record's autoranging is
    accepted and sends "A1" when the status string holds "A1" at [16:18] and
    "A0" when it holds anything else. *)
Theorem autorange_accepts_decoded_value (s : string) (t : list event) (d : dict) :
  state_to_dict s = (t, Ok d) ->
  exists a, Py.get d "autoranging" = Some a /\
    fset autorange a =
      ([Send (if slice s 16 18 =? "A1" then "A1" else "A0")], Ok tt).
Proof.
  intros Hs.
  destruct (state_to_dict_Ok s t d Hs)
    as (m & i & c & x & y & k & _ & _ & _ & _ & _ & _ & _ & ->).
  eexists. split; [reflexivity |].
  destruct (slice s 16 18 =? "A1"); reflexivity.
Qed.

(** A status string with "A0": the decoded "disabled" sends "A0". *)
Lemma autorange_accepts_decoded_value_witness :
  exists a,
    Py.get (status_record "direct voltage" "02" "disabled" "1 s" "started" "without"
              (VInt 3) "on" "5") "autoranging" = Some a /\
    fset autorange a =
      ([Send (if slice "+1.2345E+00 VD02A0T3S1Q0M3D1K5" 16 18 =? "A1"
              then "A1" else "A0")], Ok tt).
Proof.
  apply (autorange_accepts_decoded_value "+1.2345E+00 VD02A0T3S1Q0M3D1K5" [Print "1"]).
  reflexivity.
Defined.

(** X12. The four validated settings, [old_mode], [return_mode], [autorange]
    and [integration_time], never send anything but a code of their table:
    for every value, either the value is a key of the table and exactly one
    command is sent, the two-character code of that key, or it is no key and
    the setter raises the invalid-choice error with nothing sent. *)
Theorem validated_setters_send_codes (p : property string) (v : value) :
  In p [old_mode; return_mode; autorange; integration_time] ->
  (exists code : string,
     Py.get (values p) v = Some (VStr code) /\ String.length code = 2 /\
     fset p v = ([Send code], Ok tt)) \/
  (Py.get (values p) v = None /\
   fset p v = ([], Raise (ValueError (NotInDiscreteSet v)))).
Proof.
  intros Hp.
  assert (Hfset : fset p v =
            match Py.get (values p) v with
            | Some code => ([Send (str code)], Ok tt)
            | None => ([], Raise (ValueError (NotInDiscreteSet v)))
            end).
  { simpl in Hp.
    repeat (destruct Hp as [<- | Hp]; [now apply fset_strict_mapped |]).
    contradiction. }
  destruct (Py.get (values p) v) as [code |] eqn:E; [left | right; now split].
  destruct (get_In _ _ _ E) as (k & Hin & _).
  simpl in Hp.
  repeat (destruct Hp as [<- | Hp];
          [each_entry Hin ltac:(eexists; repeat split; exact Hfset) |]).
  contradiction.
Qed.

(** [return_mode] set to "measurement and status": "L1" is sent. *)
Lemma validated_setters_send_codes_witness :
  (exists code : string,
     Py.get (values return_mode) "measurement and status" = Some (VStr code) /\
     String.length code = 2 /\
     fset return_mode "measurement and status" = ([Send code], Ok tt)) \/
  (Py.get (values return_mode) "measurement and status" = None /\
   fset return_mode "measurement and status" =
     ([], Raise (ValueError (NotInDiscreteSet "measurement and status")))).
Proof.
  apply validated_setters_send_codes. simpl. tauto.
Defined.

(** X13. [integration_time] never sends "T2", the code the decoder knows
    besides the three it sends; and whatever it sends is a key of the
    decoder's table [INT_TIMES]. *)
Theorem integration_time_never_sends_T2 (v : value) (t : list event) :
  fset integration_time v = (t, Ok tt) ->
  exists code : string, t = [Send code] /\ code <> "T2" /\
    Py.get INT_TIMES code <> None.
Proof.
  rewrite fset_strict_mapped by reflexivity.
  destruct (Py.get (values integration_time) v) as [code |] eqn:E; [| discriminate].
  intros [= <-]. destruct (get_In _ _ _ E) as (k & Hin & _).
  each_entry Hin ltac:(eexists; repeat split; discriminate).
Qed.

(** "1s" sends "T3". *)
Lemma integration_time_never_sends_T2_witness :
  exists code : string, [Send "T3"] = [Send code] /\ code <> "T2" /\
    Py.get INT_TIMES code <> None.
Proof.
  apply (integration_time_never_sends_T2 "1s"). reflexivity.
Defined.

(** [set_mode] validates nothing: it sends every value as it is. *)
Lemma set_mode_sends_anything (v : value) : fset set_mode v = ([Send (str v)], Ok tt).
Proof. cbn -[percent]. now rewrite percent_s. Qed.

(** X14. Setting [set_mode] to the code of a mode name sends what [old_mode]
    sends for the name, the code itself: [set_mode] is the unvalidated way to
    the same command. *)
Theorem set_mode_sends_code (m c : value) :
  In (m, c) MODES ->
  fset set_mode c = fset old_mode m /\ fset old_mode m = ([Send (str c)], Ok tt).
Proof.
  intros Hin. each_entry Hin ltac:(split; reflexivity).
Qed.

(** "kelvin" and its code "TK". *)
Lemma set_mode_sends_code_witness :
  fset set_mode "TK" = fset old_mode "kelvin" /\
  fset old_mode "kelvin" = ([Send (str "TK")], Ok tt).
Proof.
  apply set_mode_sends_code. simpl. tauto.
Defined.
